(** * DealPrice-Analyser: the scanner and frontier agents

    A shallow embedding of [src/agents/scanner_agent.py] and
    [src/agents/frontier_agent.py].

    - Python [str] is [string]; the regular-expression engine and the numeric
      parser work on its characters as [list ascii].  The model covers ASCII
      text: [\d] is [0-9] and [str.strip] removes ASCII white space, as
      CPython does on a text whose characters are all ASCII ([is_ascii]).  A
      theorem that depends on which characters are digits or blanks either
      assumes such a text or restricts the digits it speaks of to [0-9].
    - Python [float] is modelled by [Q]: [float(tok)] is the exact value of the
      decimal literal [tok] (CPython rounds that value to the nearest double).
      Prices are compared with [Qlt], and results are stated up to [Qeq].
    - A call that can raise returns a [result]; calls that log, query the
      vector store, read the feeds or call Gemini run in the monad [M], which
      threads the trace of those events and stops at the first exception.
    - The external collaborators (feeds, encoder, vector store, Gemini client,
      [json.loads], the pydantic constructor) are the fields of the class
      [World]: a theorem stated for every [World] holds for every behaviour
      of theirs. *)

From Stdlib Require Import QArith Ascii String.
From stdpp Require Import gmap strings list pretty.

Open Scope string_scope.
Open Scope list_scope.

(** ** Exceptions and results *)

(** The exceptions that the two agents can meet.  All but [KeyboardInterrupt]
    derive from Python's [Exception]; [KeyboardInterrupt] derives from
    [BaseException] only, so [except Exception] lets it through. *)
Inductive exn : Type :=
  | ValueError (msg : string)
  | TypeError (msg : string)
  | KeyError (msg : string)
  | JSONDecodeError (msg : string)
  | ValidationError (msg : string)
  | GoogleAPIError (msg : string)
  | ChromaError (msg : string)
  | IndexError (msg : string)
  | KeyboardInterrupt.

Definition is_Exception (e : exn) : bool :=
  match e with
  | KeyboardInterrupt => false
  | _ => true
  end.

(** [str(e)], as interpolated in a log line. *)
Definition str_exn (e : exn) : string :=
  match e with
  | ValueError m | TypeError m | KeyError m | JSONDecodeError m
  | ValidationError m | GoogleAPIError m | ChromaError m | IndexError m => m
  | KeyboardInterrupt => ""
  end.

Inductive result (A : Type) : Type :=
  | Ok (a : A)
  | Raise (e : exn).
Arguments Ok {A} a.
Arguments Raise {A} e.

#[export] Instance result_ret : MRet result := λ A a, Ok a.

#[export] Instance result_bind : MBind result := λ A B f r,
  match r with
  | Ok a => f a
  | Raise e => Raise e
  end.

(** ** Regular expressions with Python's backtracking order *)

Module Re.

Inductive regex : Type :=
  | Class (p : ascii → bool)     (* a single character in a class *)
  | Cat (r1 r2 : regex)          (* r1 r2 *)
  | Or (r1 r2 : regex)           (* r1|r2, left alternative first *)
  | Opt (r : regex)              (* r?  greedy *)
  | Star (r : regex)             (* r*  greedy *)
  | Plus (r : regex).            (* r+  greedy *)

(** Greedy iteration of [step] from [s]: one more round first, stopping
    here last.  A round must consume a character to be iterated. *)
Fixpoint iterate (step : list ascii → list (list ascii)) (fuel : nat)
    (s : list ascii) : list (list ascii) :=
  match fuel with
  | O => [s]
  | S n =>
      (step s ≫= λ s',
         if decide (length s' < length s) then iterate step n s' else [])
      ++ [s]
  end.

(** [ends r s]: the texts left after each way of matching [r] at the start
    of [s], in the order in which a backtracking matcher tries them. *)
Fixpoint ends (r : regex) (s : list ascii) : list (list ascii) :=
  match r with
  | Class p =>
      match s with
      | c :: t => if p c then [t] else []
      | [] => []
      end
  | Cat r1 r2 => ends r1 s ≫= ends r2
  | Or r1 r2 => ends r1 s ++ ends r2 s
  | Opt r => ends r s ++ [s]
  | Star r => iterate (ends r) (length s) s
  | Plus r => ends r s ≫= λ s', iterate (ends r) (length s') s'
  end.

(** [re.match(r, s).group()]: the first way of matching [r] at the start. *)
Definition match_prefix (r : regex) (s : list ascii) : option (list ascii) :=
  rest ← head (ends r s); Some (take (length s - length rest) s).

(** [re.search(r, s).group()]: the match at the leftmost position that has
    one; [None] when no position has. *)
Fixpoint search (r : regex) (s : list ascii) : option (list ascii) :=
  match match_prefix r s with
  | Some tok => Some tok
  | None =>
      match s with
      | [] => None
      | _ :: t => search r t
      end
  end.

(** The words of a regular expression. *)
Inductive matches : regex → list ascii → Prop :=
  | m_class p c : p c = true → matches (Class p) [c]
  | m_cat r1 r2 w1 w2 :
      matches r1 w1 → matches r2 w2 → matches (Cat r1 r2) (w1 ++ w2)
  | m_or_l r1 r2 w : matches r1 w → matches (Or r1 r2) w
  | m_or_r r1 r2 w : matches r2 w → matches (Or r1 r2) w
  | m_opt_none r : matches (Opt r) []
  | m_opt_some r w : matches r w → matches (Opt r) w
  | m_star_nil r : matches (Star r) []
  | m_star_cons r w1 w2 :
      matches r w1 → matches (Star r) w2 → matches (Star r) (w1 ++ w2)
  | m_plus r w1 w2 :
      matches r w1 → matches (Star r) w2 → matches (Plus r) (w1 ++ w2).

End Re.

(** ** Characters and text *)

(** A character of an ASCII text: a byte below 128.  (A character outside
    ASCII is stored as bytes from 128 on.) *)
Definition is_ascii (c : ascii) : bool :=
  bool_decide (nat_of_ascii c < 128)%nat.

(** [\d], and the digits that [float] reads, on ASCII text: [0] to [9].
    CPython's [\d] and [float] also take the decimal digits of other
    scripts, which no ASCII text contains. *)
Definition is_digit (c : ascii) : bool :=
  bool_decide (48 ≤ nat_of_ascii c ≤ 57)%nat.

Definition digit_value (c : ascii) : Z := Z.of_nat (nat_of_ascii c) - 48.

(** [str.isspace] on ASCII text: tab, line feed, vertical tab, form feed,
    carriage return, the four separators 0x1c-0x1f, and space.  CPython also
    counts the blanks outside ASCII, which no ASCII text contains. *)
Definition is_space (c : ascii) : bool :=
  let n := nat_of_ascii c in
  bool_decide (9 ≤ n ≤ 13)%nat || bool_decide (28 ≤ n ≤ 32)%nat.

(** [s.replace(old, new)] for a one-character [old]. *)
Definition replace (old : ascii) (new : list ascii) (s : list ascii)
    : list ascii :=
  s ≫= λ c, if decide (c = old) then new else [c].

(** [s.strip()]. *)
Fixpoint lstrip (s : list ascii) : list ascii :=
  match s with
  | c :: t => if is_space c then lstrip t else s
  | [] => []
  end.

Definition strip (s : list ascii) : list ascii :=
  reverse (lstrip (reverse (lstrip s))).

(** ** [float] on decimal literals *)

(** The value of a run of decimal digits, or [None] at a character that is
    not a digit. *)
Fixpoint digits (acc : Z) (s : list ascii) : option Z :=
  match s with
  | [] => Some acc
  | c :: t => if is_digit c then digits (10 * acc + digit_value c) t else None
  end.

(** Splits at the first ['.']: the integer part and, when there is a point,
    the fraction digits. *)
Fixpoint split_point (s : list ascii) : list ascii * option (list ascii) :=
  match s with
  | [] => ([], None)
  | c :: t =>
      if decide (c = "."%char) then ([], Some t)
      else let '(i, f) := split_point t in (c :: i, f)
  end.

Definition split_sign (s : list ascii) : bool * list ascii :=
  match s with
  | c :: t =>
      if decide (c = "-"%char) then (true, t)
      else if decide (c = "+"%char) then (false, t)
      else (false, s)
  | [] => (false, [])
  end.

Definition signed (neg : bool) (q : Q) : Q := if neg then Qopp q else q.

(** The value of an unsigned literal: digits, and optionally a point and more
    digits, with a digit on at least one side of the point. *)
Definition float_body (neg : bool) (body : list ascii) : result Q :=
  let '(ip, fp) := split_point body in
  let bad := Raise (ValueError "could not convert string to float") in
  match fp with
  | None =>
      match ip, digits 0 ip with
      | _ :: _, Some n => Ok (signed neg (inject_Z n))
      | _, _ => bad
      end
  | Some fd =>
      match ip ++ fd, digits 0 (ip ++ fd) with
      | _ :: _, Some n =>
          Ok (signed neg (Qmake n (Z.to_pos (10 ^ Z.of_nat (length fd)))))
      | _, _ => bad
      end
  end.

(** [float(tok)] for a plain decimal literal: an optional sign before an
    unsigned literal.  Any other text is a [ValueError] here (exponents,
    [inf], [nan], underscores and surrounding blanks, which CPython also
    reads, are not modelled; the price pattern never produces them). *)
Definition float (tok : list ascii) : result Q :=
  let '(neg, body) := split_sign tok in float_body neg body.

(** ** Events and the agent monad *)

(** What an agent does to the outside world, in the order it does it. *)
Inductive event : Type :=
  | Logged (agent msg : string)           (* Agent.log *)
  | FeedsRead                             (* ScrapedDeal.fetch *)
  | Encoded (texts : list string)         (* SentenceTransformer.encode *)
  | StoreQueried (n_results : nat)        (* collection.query *)
  | ModelCalled (model prompt : string).  (* GenerativeModel.generate_content *)

Definition M (A : Type) : Type := list event → list event * result A.

#[export] Instance M_ret : MRet M := λ A a tr, (tr, Ok a).

#[export] Instance M_bind : MBind M := λ A B f m tr,
  match m tr with
  | (tr', Ok a) => f a tr'
  | (tr', Raise e) => (tr', Raise e)
  end.

#[export] Instance M_fmap : FMap M := λ A B f m, a ← m; mret (f a).

Definition emit (ev : event) : M () := λ tr, (tr ++ [ev], Ok ()).

(** An outside call: it is recorded, and its outcome is returned or raised. *)
Definition call {A : Type} (ev : event) (r : result A) : M A :=
  λ tr, (tr ++ [ev], r).

Definition lift {A : Type} (r : result A) : M A := λ tr, (tr, r).

(** [try: body / except Exception as e: handler(e)]. *)
Definition try_except {A : Type} (body : M A) (handler : exn → M A) : M A :=
  λ tr,
    match body tr with
    | (tr', Raise e) => if is_Exception e then handler e tr' else (tr', Raise e)
    | done => done
    end.

Definition is_model_call (ev : event) : bool :=
  match ev with
  | ModelCalled _ _ => true
  | _ => false
  end.

Definition model_calls (tr : list event) : list event :=
  filter is_model_call tr.

(** ** Data: [src/agents/deals.py] *)

(** [deals.py] is not among the sources: its four classes are modelled from
    the data model of the spec and from the fields that the agents read. *)

Module Deal.
(** Modelled from the spec: the class [Deal] of [deals.py] is missing.  A
    CuratedDeal is a rephrased product description, a price and the
    originating url (the three keys of the JSON format in the system
    prompt). *)
Record t : Type := mk { product_description : string; price : Q; url : string }.
End Deal.

Module ScrapedDeal.
(** Modelled from the spec: the class [ScrapedDeal] of [deals.py] is missing.
    A ScrapedCandidate is a url, raw descriptive text, and feed provenance. *)
Record t : Type := mk { url : string; text : string; feed : string }.

#[export] Instance eq_dec : EqDecision t.
Proof. solve_decision. Defined.

(** Modelled from the spec: [ScrapedDeal.describe] is missing; it renders the
    candidate's descriptive text for the prompt. *)
Definition describe (scrape : t) : string := text scrape.
End ScrapedDeal.

Module DealSelection.
(** Modelled from the spec: the class [DealSelection] of [deals.py] is
    missing.  It holds the ordered deals of one curation pass, under the key
    ["deals"] of the JSON format in the system prompt. *)
Record t : Type := mk { deals : list Deal.t }.

End DealSelection.

Module Opportunity.
(** Modelled from the spec: the class [Opportunity] of [deals.py] is missing.
    A memory entry is a deal already surfaced; the scanner reads
    [opp.deal.url] only. *)
Record t : Type := mk { deal : Deal.t }.
End Opportunity.

(** ** The outside world *)

(** A value stored in a Chroma metadata map. *)
Inductive meta : Type :=
  | MStr (s : string)
  | MInt (z : Z)
  | MFloat (q : Q)
  | MBool (b : bool).

(** What [collection.query] returns: one list per query embedding. *)
Record query_result : Type := {
  documents : list (list string);
  metadatas : list (list (gmap string meta));
}.

Record generation_config : Type := {
  temperature : Q;
  max_output_tokens : option nat;
  response_mime_type : option string;
}.

(** [genai.GenerativeModel(model_name=..., system_instruction=...)]. *)
Record GenerativeModel : Type := {
  model_name : string;
  system_instruction : string;
}.

(** The collaborators of the agents.  [generate_content] stands for the call
    together with the read of [response.text]. *)
Class World : Type := {
  JSON : Type;
  vector : Type;
  getenv : string → option string;
  ScrapedDeal_fetch : option (list string) → result (list ScrapedDeal.t);
  generate_content : GenerativeModel → string → generation_config → result string;
  json_loads : string → result JSON;
  DealSelection_new : JSON → result DealSelection.t;
  encode : list string → result vector;
  collection_query : vector → nat → result query_result;
  format_2f : Q → string;
}.

Definition nl : string := String (ascii_of_nat 10) "".
Definition dq : string := String (ascii_of_nat 34) "".

(** [", ".join]-style joining. *)
Fixpoint join (sep : string) (parts : list string) : string :=
  match parts with
  | [] => ""
  | [p] => p
  | p :: rest => p +:+ sep +:+ join sep rest
  end.

#[export] Instance Qlt_dec : RelDecision Qlt.
Proof. intros x y. destruct (Qlt_le_dec x y); [left | right]; [done | by apply Qle_not_lt]. Defined.

(** ** [src/agents/agent.py] *)

Module Agent.
(** Modelled from the spec: [agent.py] is missing.  [log] records the line
    under the agent's name. *)
Definition log (name msg : string) : M () := emit (Logged name msg).
End Agent.

(** ** [src/agents/scanner_agent.py] *)

Module ScannerAgent.
Section WithWorld.
Context `{World}.

Definition MODEL : string := "gemini-2.5-flash-lite".

Definition SYSTEM_PROMPT : string :=
  "You identify and summarize the 5 most detailed deals from a list, by selecting deals that have the most detailed, high quality description and the most clear price.
Respond strictly in JSON with no explanation, using this format. You should provide the price as a number derived from the description. If the price of a deal isn't clear, do not include that deal in your response.
Most important is that you respond with the 5 deals that have the most detailed product description with price. It's not important to mention the terms of the deal; most important is a thorough description of the product.
Be careful with products that are described as " +:+ dq +:+ "$XXX off" +:+ dq +:+ " or " +:+ dq +:+ "reduced by $XXX" +:+ dq +:+ " - this isn't the actual price of the product.

{" +:+ dq +:+ "deals" +:+ dq +:+ ": [
  {
    " +:+ dq +:+ "product_description" +:+ dq +:+ ": " +:+ dq +:+ "A 4–5 sentence paragraph describing the product itself in detail." +:+ dq +:+ ",
    " +:+ dq +:+ "price" +:+ dq +:+ ": 99.99,
    " +:+ dq +:+ "url" +:+ dq +:+ ": " +:+ dq +:+ "the url as provided" +:+ dq +:+ "
  }
]}".

Definition USER_PROMPT_PREFIX : string :=
  "Respond with the most promising 5 deals from this list, selecting those which have the most detailed, high quality product description and a clear price that is greater than 0.
Respond strictly in JSON, and only JSON. You should rephrase the description to be a summary of the product itself, not the terms of the deal.
Remember to respond with a paragraph of text in the product_description field for each of the 5 items that you select.
Be careful with products that are described as " +:+ dq +:+ "$XXX off" +:+ dq +:+ " or " +:+ dq +:+ "reduced by $XXX" +:+ dq +:+ " - this isn't the actual price of the product.

Deals:
".

Definition USER_PROMPT_SUFFIX : string :=
  nl +:+ nl +:+ "Strictly respond in JSON and include exactly 5 deals, no more.".

Definition name : string := "Scanner Agent".

(** The instance: [self.model]. *)
Record t : Type := { model : GenerativeModel }.

Definition log : string → M () := Agent.log name.

Definition init : M t :=
  log "Scanner Agent is initializing";;
  match getenv "GEMINI_API_KEY" with
  | None | Some "" =>
      lift (Raise (ValueError "❌ GEMINI_API_KEY environment variable is not set."))
  | Some _ =>
      let self :=
        {| model := {| model_name := MODEL; system_instruction := SYSTEM_PROMPT |} |} in
      log "Scanner Agent is ready (Gemini)";;
      mret self
  end.

Definition fetch_deals (self : t) (memory : list Opportunity.t)
    (selected_feeds : option (list string)) : M (list ScrapedDeal.t) :=
  log "Scanner Agent is about to fetch deals from selected RSS feeds";;
  let urls := (λ opp, Deal.url (Opportunity.deal opp)) <$> memory in
  scraped ← call FeedsRead (ScrapedDeal_fetch selected_feeds);
  let result := filter (λ scrape, ScrapedDeal.url scrape ∉ urls) scraped in
  log ("Scanner Agent received " +:+ pretty (length result) +:+ " new deals");;
  mret result.

Definition make_user_prompt (self : t) (scraped : list ScrapedDeal.t) : string :=
  let user_prompt := USER_PROMPT_PREFIX in
  let user_prompt := user_prompt +:+ join (nl +:+ nl) (ScrapedDeal.describe <$> scraped) in
  let user_prompt := user_prompt +:+ USER_PROMPT_SUFFIX in
  user_prompt.

(** The body of the [try] block: the model call, [json.loads] and the
    pydantic constructor. *)
Definition ask_gemini (self : t) (user_prompt : string) : M DealSelection.t :=
  response_text ←
    call (ModelCalled (model_name (model self)) user_prompt)
      (generate_content (model self) user_prompt
         {| temperature := 0;
            max_output_tokens := None;
            response_mime_type := Some "application/json" |});
  parsed ← lift (json_loads response_text);
  lift (DealSelection_new parsed).

(** An early [return None] inside the handler is the [None] that the
    [try] statement hands on; the code after it runs on [Some result]. *)
Definition scan (self : t) (memory : list Opportunity.t)
    (selected_feeds : option (list string)) : M (option DealSelection.t) :=
  scraped ← fetch_deals self memory selected_feeds;
  if decide (scraped = []) then mret None
  else
    let user_prompt := make_user_prompt self scraped in
    log "Scanner Agent is calling Gemini";;
    tried ←
      try_except
        (Some <$> ask_gemini self user_prompt)
        (λ e,
           log ("❌ Scanner Agent encountered an error calling Gemini: " +:+ str_exn e);;
           mret None);
    match tried with
    | None => mret None
    | Some result =>
        let result :=
          DealSelection.mk (filter (λ deal, (0 < Deal.price deal)%Q) (DealSelection.deals result)) in
        log ("Scanner Agent received " +:+ pretty (length (DealSelection.deals result))
             +:+ " selected deals with price>0 from Gemini");;
        mret (Some result)
    end.

End WithWorld.
End ScannerAgent.

(** ** [src/agents/frontier_agent.py] *)

Definition chars : string → list ascii := String.list_ascii_of_string.
Definition text_of : list ascii → string := String.string_of_list_ascii.

(** [d.get(key, default)]. *)
Definition dict_get {V : Type} (d : gmap string V) (key : string) (default_ : V) : V :=
  default default_ (d !! key).

(** [seq[0]]. *)
Definition first {A : Type} (seq : list A) : result A :=
  match seq with
  | x :: _ => Ok x
  | [] => Raise (IndexError "list index out of range")
  end.

Module FrontierAgent.
Section WithWorld.
Context `{World}.

Definition name : string := "Frontier Agent".

Definition MODEL : string := "gemini-2.5-flash-lite".

(** The instance: [self.model]; [self.collection] and [self.encoder] are
    the vector store and the encoder of the world. *)
Record t : Type := { model : GenerativeModel }.

Definition log : string → M () := Agent.log name.

Definition init : M t :=
  log "Initializing Frontier Agent";;
  match getenv "GEMINI_API_KEY" with
  | None | Some "" =>
      lift (Raise (ValueError "❌ GEMINI_API_KEY environment variable is not set."))
  | Some _ =>
      let self :=
        {| model :=
             {| model_name := MODEL;
                system_instruction :=
                  "You estimate prices of items. Reply only with the price, no explanation." |} |} in
      log "Frontier Agent is ready (Gemini)";;
      mret self
  end.

(** [f"{price:.2f}"]: numbers and booleans are formatted, a string value
    has no format code ['f']. *)
Definition fmt_2f (price : meta) : result string :=
  match price with
  | MFloat q => Ok (format_2f q)
  | MInt z => Ok (format_2f (inject_Z z))
  | MBool b => Ok (format_2f (if b then 1 else 0))
  | MStr _ => Raise (ValueError "Unknown format code 'f' for object of type 'str'")
  end.

Definition make_context (self : t) (similars : list string) (prices : list meta)
    : result string :=
  let message :=
    "To provide some context, here are some other items that might be similar "
    +:+ "to the item you need to estimate." +:+ nl +:+ nl in
  foldl
    (λ acc '(similar, price),
       message ← acc;
       shown ← fmt_2f price;
       Ok (message
           +:+ "Potentially related product:" +:+ nl +:+ similar +:+ nl
           +:+ "Price is $" +:+ shown +:+ nl +:+ nl))
    (Ok message) (zip similars prices).

(** The price read from one neighbour's metadata. *)
Definition metadata_price (m : gmap string meta) : meta :=
  dict_get m "price" (dict_get m "selling_price" (MFloat 0)).

Definition find_similars (self : t) (description : string)
    : M (list string * list meta) :=
  log "Frontier Agent is performing a RAG search to find 5 similar products";;
  vector ← call (Encoded [description]) (encode [description]);
  results ← call (StoreQueried 5) (collection_query vector 5);
  documents ← lift (first (documents results));
  metas ← lift (first (metadatas results));
  let prices := metadata_price <$> metas in
  log "Frontier Agent has found similar products";;
  mret (documents, prices).

(** [r"[-+]?\d*\.\d+|\d+"]: alternation binds loosest, so the optional sign
    belongs to the first alternative only. *)
Definition price_pattern : Re.regex :=
  Re.Or
    (Re.Cat (Re.Opt (Re.Class (λ c, bool_decide (c = "-"%char ∨ c = "+"%char))))
       (Re.Cat (Re.Star (Re.Class is_digit))
          (Re.Cat (Re.Class (λ c, bool_decide (c = "."%char)))
             (Re.Plus (Re.Class is_digit)))))
    (Re.Plus (Re.Class is_digit)).

Definition get_price (self : t) (text : string) : result Q :=
  let text := replace ","%char [] (replace "$"%char [] (chars text)) in
  match Re.search price_pattern text with
  | Some group => float group
  | None => Ok 0%Q
  end.

Definition price (self : t) (description : string) : M Q :=
  '(documents, prices) ← find_similars self description;
  prompt ← lift (make_context self documents prices);
  let prompt := prompt +:+ "How much does this cost?" +:+ nl +:+ nl in
  let prompt := prompt +:+ description +:+ nl +:+ nl +:+ "Price is $" in
  log "Frontier Agent is calling Gemini";;
  response_text ←
    call (ModelCalled (model_name (model self)) prompt)
      (generate_content (model self) prompt
         {| temperature := 0;
            max_output_tokens := Some 5%nat;
            response_mime_type := None |});
  let reply := text_of (strip (chars response_text)) in
  result ← lift (get_price self reply);
  log ("Frontier Agent completed - predicting $" +:+ format_2f result);;
  mret result.

End WithWorld.
End FrontierAgent.

(** ** Scripted worlds, for the examples *)

(** A world whose feeds, model reply and vector store answer as scripted.
    Its JSON values are the decoded deals themselves, its schema accepts the
    lists of at most 5 deals, and it prints a number as its hundredths. *)
Definition scripted (feed : result (list ScrapedDeal.t)) (reply : result string)
    (decode : string → result (list Deal.t)) (neighbours : result query_result)
    : World := {|
  JSON := list Deal.t;
  vector := list string;
  getenv := λ _, Some "secret";
  ScrapedDeal_fetch := λ _, feed;
  generate_content := λ _ _ _, reply;
  json_loads := decode;
  DealSelection_new := λ parsed,
    if decide (length parsed ≤ 5)%nat then Ok (DealSelection.mk parsed)
    else Raise (ValidationError "deals: at most 5 items");
  encode := λ texts, Ok texts;
  collection_query := λ _ _, neighbours;
  format_2f := λ q, pretty (Qnum q * 100 / Zpos (Qden q))%Z +:+ "e-2";
|}.

Definition scanner : ScannerAgent.t :=
  {| ScannerAgent.model :=
       {| model_name := ScannerAgent.MODEL;
          system_instruction := ScannerAgent.SYSTEM_PROMPT |} |}.

Definition frontier : FrontierAgent.t :=
  {| FrontierAgent.model :=
       {| model_name := FrontierAgent.MODEL;
          system_instruction :=
            "You estimate prices of items. Reply only with the price, no explanation." |} |}.

Definition candidate (url : string) : ScrapedDeal.t :=
  ScrapedDeal.mk url ("A deal found at " +:+ url) "electronics".

Definition known (url : string) : Opportunity.t :=
  Opportunity.mk (Deal.mk "A deal raised before" 10 url).

Definition priced (p : Q) : Deal.t :=
  Deal.mk "A product" p "https://deals.example/item".

Definition no_neighbours : result query_result :=
  Ok {| documents := [[]]; metadatas := [[]] |}.

(** The reference selection of the spec: prices 10, 0, -5, 20, 30. *)
Definition five_prices : list Deal.t :=
  [priced 10; priced 0; priced (-5); priced 20; priced 30].

(** A world with one fresh candidate whose model reply decodes to [deals]. *)
Definition replying (deals : list Deal.t) : World :=
  scripted (Ok [candidate "C"]) (Ok "{...}") (λ _, Ok deals) no_neighbours.

(** A world whose price model answers [reply]. *)
Definition answering (reply : string) : World :=
  scripted (Ok []) (Ok reply) (λ _, Ok []) no_neighbours.

(** A world whose feeds publish one candidate per url. *)
Definition feeding (urls : list string) : World :=
  scripted (Ok (candidate <$> urls)) (Ok "{...}") (λ _, Ok []) no_neighbours.

(** A world with one fresh candidate whose model call raises [e]. *)
Definition failing (e : exn) : World :=
  scripted (Ok [candidate "C"]) (Raise e) (λ _, Ok []) no_neighbours.

(** Three neighbours: one priced under ["price"], one under
    ["selling_price"], one with neither field. *)
Definition three_neighbours : list (gmap string meta) :=
  [ {[ "price" := MFloat 12.5 ]};
    {[ "selling_price" := MInt 7 ]};
    {[ "title" := MStr "chair" ]} ].

Definition retrieving : World :=
  scripted (Ok []) (Ok "42") (λ _, Ok [])
    (Ok {| documents := [["lamp"; "desk"; "chair"]];
           metadatas := [three_neighbours] |}).

(** A world whose feeds cannot be read. *)
Definition unreachable_feeds : World :=
  scripted (Raise (ValueError "feed unreachable")) (Ok "{...}") (λ _, Ok [])
    no_neighbours.

(** A world whose vector store is down. *)
Definition store_down : World :=
  scripted (Ok []) (Ok "42") (λ _, Ok []) (Raise (ChromaError "store unavailable")).


(** * Properties *)

(** ** The matcher returns words of the expression *)

Module ReFacts.
Import Re.

Lemma iterate_sound (r : regex) (step : list ascii → list (list ascii)) :
  (∀ s s', s' ∈ step s → ∃ w, s = w ++ s' ∧ matches r w) →
  ∀ fuel s s', s' ∈ iterate step fuel s →
    ∃ w, s = w ++ s' ∧ matches (Star r) w.
Proof.
  intros Hstep fuel. induction fuel as [|n IH]; intros s s' Hin; simpl in Hin.
  - apply list_elem_of_singleton in Hin as ->.
    exists []. split; [done | constructor].
  - apply elem_of_app in Hin as [Hin | Hin].
    + apply list_elem_of_bind in Hin as (mid & Hin & Hmid).
      case_decide; [| by apply elem_of_nil in Hin].
      destruct (Hstep _ _ Hmid) as (w1 & -> & Hw1).
      destruct (IH _ _ Hin) as (w2 & -> & Hw2).
      exists (w1 ++ w2). split; [by rewrite (assoc_L (++)) | by constructor].
    + apply list_elem_of_singleton in Hin as ->.
      exists []. split; [done | constructor].
Qed.

Lemma ends_sound (r : regex) :
  ∀ s s', s' ∈ ends r s → ∃ w, s = w ++ s' ∧ matches r w.
Proof.
  induction r as [p | r1 IH1 r2 IH2 | r1 IH1 r2 IH2 | r IH | r IH | r IH];
    intros s s' Hin; simpl in Hin.
  - destruct s as [|c t]; [by apply elem_of_nil in Hin |].
    destruct (p c) eqn:Hp; [| by apply elem_of_nil in Hin].
    apply list_elem_of_singleton in Hin as ->.
    exists [c]. split; [done | by constructor].
  - apply list_elem_of_bind in Hin as (mid & Hin & Hmid).
    destruct (IH1 _ _ Hmid) as (w1 & -> & Hw1).
    destruct (IH2 _ _ Hin) as (w2 & -> & Hw2).
    exists (w1 ++ w2). split; [by rewrite (assoc_L (++)) | by constructor].
  - apply elem_of_app in Hin as [Hin | Hin].
    + destruct (IH1 _ _ Hin) as (w & -> & Hw). exists w. split; [done | by apply m_or_l].
    + destruct (IH2 _ _ Hin) as (w & -> & Hw). exists w. split; [done | by apply m_or_r].
  - apply elem_of_app in Hin as [Hin | Hin].
    + destruct (IH _ _ Hin) as (w & -> & Hw). exists w. split; [done | by apply m_opt_some].
    + apply list_elem_of_singleton in Hin as ->. exists []. split; [done | constructor].
  - by apply (iterate_sound r (ends r)) in Hin.
  - apply list_elem_of_bind in Hin as (mid & Hin & Hmid).
    destruct (IH _ _ Hmid) as (w1 & -> & Hw1).
    apply (iterate_sound r (ends r)) in Hin as (w2 & -> & Hw2); [| done].
    exists (w1 ++ w2). split; [by rewrite (assoc_L (++)) | by constructor].
Qed.

Lemma match_prefix_sound (r : regex) (s tok : list ascii) :
  match_prefix r s = Some tok → matches r tok ∧ ∃ rest, s = tok ++ rest.
Proof.
  unfold match_prefix. intros Hm.
  destruct (head (ends r s)) as [rest|] eqn:Hhd; simplify_eq/=.
  apply head_Some_elem_of, ends_sound in Hhd as (w & -> & Hw).
  rewrite length_app, Nat.add_sub, take_app_length. eauto.
Qed.

Lemma search_sound (r : regex) (s tok : list ascii) :
  search r s = Some tok →
  matches r tok ∧ ∃ before after, s = before ++ tok ++ after.
Proof.
  induction s as [|c t IH]; simpl; intros Hs.
  - destruct (match_prefix r []) as [tok'|] eqn:Hm; simplify_eq.
    apply match_prefix_sound in Hm as (? & rest & ?).
    split; [done |]. by exists [], rest.
  - destruct (match_prefix r (c :: t)) as [tok'|] eqn:Hm; simplify_eq.
    + apply match_prefix_sound in Hm as (? & rest & ?).
      split; [done |]. by exists [], rest.
    + destruct (IH Hs) as (? & before & after & ->).
      split; [done |]. by exists (c :: before), after.
Qed.

Lemma search_elem_of (r : regex) (s tok : list ascii) (c : ascii) :
  search r s = Some tok → c ∈ tok → c ∈ s.
Proof.
  intros (_ & before & after & ->)%search_sound Hc.
  rewrite !elem_of_app. auto.
Qed.

End ReFacts.

(** ** The words of the price pattern, and their value *)

Section PricePattern.
Import Re.
Local Open Scope Q_scope.

Lemma matches_star_class (p : ascii → bool) (w : list ascii) :
  matches (Star (Class p)) w → Forall p w.
Proof.
  intros Hm. remember (Star (Class p)) as r eqn:Hr.
  induction Hm as [| | | | | |r'|r' w1 w2 Hw1 _ _ IH|]; simplify_eq.
  - constructor.
  - inversion Hw1; simplify_eq. constructor; [by apply Is_true_true | by apply IH].
Qed.

Lemma matches_plus_class (p : ascii → bool) (w : list ascii) :
  matches (Plus (Class p)) w → w ≠ [] ∧ Forall p w.
Proof.
  inversion 1 as [| | | | | | | |r' w1 w2 Hw1 Hw2]; simplify_eq.
  inversion Hw1; simplify_eq. split; [done |].
  constructor; [by apply Is_true_true | by apply matches_star_class].
Qed.

(** A word of the pattern is a signed or unsigned decimal with a fraction,
    or a bare run of digits. *)
Lemma price_pattern_words (tok : list ascii) :
  matches FrontierAgent.price_pattern tok →
  (∃ sg ds fs,
      tok = sg ++ ds ++ "."%char :: fs ∧
      (sg = [] ∨ sg = ["-"%char] ∨ sg = ["+"%char]) ∧
      Forall is_digit ds ∧ Forall is_digit fs ∧ fs ≠ []) ∨
  (tok ≠ [] ∧ Forall is_digit tok).
Proof.
  unfold FrontierAgent.price_pattern.
  inversion 1 as [| |r1 r2 w Hw|r1 r2 w Hw| | | | |]; simplify_eq.
  - left.
    inversion Hw as [|r1 r2 sg w' Hsg Hw'| | | | | | |]; simplify_eq.
    inversion Hw' as [|r1 r2 ds w'' Hds Hw''| | | | | | |]; simplify_eq.
    inversion Hw'' as [|r1 r2 pt fs Hpt Hfs| | | | | | |]; simplify_eq.
    inversion Hpt as [p c Hc| | | | | | | |]; simplify_eq.
    apply bool_decide_eq_true in Hc as ->.
    apply matches_star_class in Hds. apply matches_plus_class in Hfs as [? ?].
    exists sg, ds, fs. split_and!; try done.
    inversion Hsg as [| | | |r|r w Hc| | |]; simplify_eq; [by left |].
    inversion Hc as [p c Hc'| | | | | | | |]; simplify_eq.
    apply bool_decide_eq_true in Hc' as [-> | ->]; auto.
  - right. by apply matches_plus_class.
Qed.

Lemma is_digit_not_mark (c : ascii) :
  is_digit c → c ≠ "."%char ∧ c ≠ "-"%char ∧ c ≠ "+"%char.
Proof. intros Hc. split_and!; intros ->; by vm_compute in Hc. Qed.

Lemma digit_value_nonneg (c : ascii) : is_digit c → (0 ≤ digit_value c)%Z.
Proof.
  unfold is_digit, digit_value. intros Hc%bool_decide_unpack. lia.
Qed.

Lemma digits_Forall (s : list ascii) (acc : Z) :
  Forall is_digit s → (0 ≤ acc)%Z → ∃ n, digits acc s = Some n ∧ (0 ≤ n)%Z.
Proof.
  intros Hs. revert acc. induction Hs as [|c t Hc _ IH]; intros acc Hacc; simpl.
  - eauto.
  - rewrite (Is_true_eq_true _ Hc). apply IH.
    pose proof (digit_value_nonneg c Hc). lia.
Qed.

Lemma split_point_digits (ds rest : list ascii) :
  Forall is_digit ds → split_point (ds ++ "."%char :: rest) = (ds, Some rest).
Proof.
  induction 1 as [|c t Hc _ IH]; simpl.
  - by repeat case_decide.
  - apply is_digit_not_mark in Hc as (? & _). by rewrite decide_False, IH.
Qed.

Lemma split_point_no_point (ds : list ascii) :
  Forall is_digit ds → split_point ds = (ds, None).
Proof.
  induction 1 as [|c t Hc _ IH]; simpl; [done |].
  apply is_digit_not_mark in Hc as (? & _). by rewrite decide_False, IH.
Qed.

Lemma split_sign_unsigned (s : list ascii) :
  (∀ c, head s = Some c → c ≠ "-"%char ∧ c ≠ "+"%char) →
  split_sign s = (false, s).
Proof.
  destruct s as [|c t]; [done |]. intros Hc. simpl.
  destruct (Hc c eq_refl). by rewrite !decide_False.
Qed.

Lemma Qmake_nonneg (n : Z) (d : positive) : (0 ≤ n)%Z → 0 <= n # d.
Proof. intros Hn. unfold Qle. simpl. lia. Qed.

(** [float] reads every word of the pattern, and reads a word without a
    minus sign as a number that is not negative. *)
Lemma float_price_word (tok : list ascii) :
  matches FrontierAgent.price_pattern tok →
  ∃ q, float tok = Ok q ∧ ("-"%char ∉ tok → 0 <= q).
Proof.
  intros [(sg & ds & fs & -> & Hsg & Hds & Hfs & Hne) | [Hne Hds]]%price_pattern_words.
  - assert (Hall : Forall is_digit (ds ++ fs)) by by apply Forall_app.
    destruct (digits_Forall _ 0 Hall) as (n & Hn & Hpos); [done |].
    assert (Hcons : ∃ c l, ds ++ fs = c :: l).
    { destruct ds; destruct fs; simpl; eauto. done. }
    destruct Hcons as (c & l & Hcl).
    assert (Hbody : ∀ neg, float_body neg (ds ++ "."%char :: fs)
              = Ok (signed neg (n # Z.to_pos (10 ^ Z.of_nat (length fs))))).
    { intros neg. unfold float_body.
      rewrite split_point_digits by done. rewrite Hn, Hcl. done. }
    unfold float. destruct Hsg as [-> | [-> | ->]]; simpl.
    + rewrite split_sign_unsigned.
      * rewrite Hbody. eexists. split; [done |]. intros _. by apply Qmake_nonneg.
      * intros c' Hhd. destruct ds as [|d ds']; simpl in Hhd; simplify_eq; [done |].
        apply Forall_cons in Hds as [Hd _]. by apply is_digit_not_mark in Hd as (_ & ? & ?).
    + rewrite Hbody. eexists. split; [done |]. intros []. apply elem_of_cons. by left.
    + rewrite Hbody. eexists. split; [done |]. intros _. by apply Qmake_nonneg.
  - destruct (digits_Forall _ 0 Hds) as (n & Hn & Hpos); [done |].
    unfold float. rewrite split_sign_unsigned.
    + unfold float_body. rewrite split_point_no_point by done.
      cbv beta iota. destruct tok as [|d tok']; [done |]. rewrite Hn. eexists. split; [done |]. intros _.
      by apply Qmake_nonneg.
    + intros c' Hhd. destruct tok as [|d tok']; simplify_eq/=.
      apply Forall_cons in Hds as [Hd _]. by apply is_digit_not_mark in Hd as (_ & ? & ?).
Qed.

Lemma price_word_has_digit (tok : list ascii) :
  matches FrontierAgent.price_pattern tok → ∃ c, c ∈ tok ∧ is_digit c.
Proof.
  intros [(sg & ds & fs & -> & _ & _ & Hfs & Hne) | [Hne Hds]]%price_pattern_words.
  - destruct fs as [|c fs']; [done |]. exists c.
    apply Forall_cons in Hfs as [? _]. split; [| done].
    rewrite !elem_of_app, !elem_of_cons. auto.
  - destruct tok as [|c tok']; [done |]. exists c.
    apply Forall_cons in Hds as [? _]. split; [| done]. apply elem_of_cons. by left.
Qed.

End PricePattern.

(** ** The numeric extractor *)

Section GetPrice.
Local Open Scope Q_scope.
Variable self : FrontierAgent.t.

Lemma elem_of_replace_empty (old c : ascii) (s : list ascii) :
  c ∈ replace old [] s → c ∈ s.
Proof.
  unfold replace. intros (c' & Hc & Hc')%list_elem_of_bind.
  case_decide; [by apply elem_of_nil in Hc |].
  by apply list_elem_of_singleton in Hc as ->.
Qed.

Lemma elem_of_lstrip (c : ascii) (s : list ascii) : c ∈ lstrip s → c ∈ s.
Proof.
  induction s as [|d t IH]; simpl; [done |].
  destruct (is_space d); [| done]. intros ?%IH. apply elem_of_cons. by right.
Qed.

Lemma elem_of_strip (c : ascii) (s : list ascii) : c ∈ strip s → c ∈ s.
Proof.
  unfold strip. rewrite elem_of_reverse. intros ?%elem_of_lstrip.
  by apply elem_of_lstrip, elem_of_reverse.
Qed.


(** The extractor never raises: [float] reads whatever the pattern matched. *)
Lemma get_price_returns (text : string) :
  ∃ q, FrontierAgent.get_price self text = Ok q.
Proof.
  unfold FrontierAgent.get_price.
  destruct (Re.search _ _) as [group|] eqn:Hs; [| by eexists].
  apply ReFacts.search_sound in Hs as [Hm _].
  destruct (float_price_word _ Hm) as (q & -> & _). by eexists.
Qed.

(** A text without a minus sign never yields a negative number. *)
Lemma get_price_unsigned (text : string) (q : Q) :
  "-"%char ∉ chars text → FrontierAgent.get_price self text = Ok q → 0 <= q.
Proof.
  unfold FrontierAgent.get_price. intros Hminus.
  destruct (Re.search _ _) as [group|] eqn:Hs; [| by intros [= <-]].
  pose proof Hs as [Hm _]%ReFacts.search_sound.
  destruct (float_price_word _ Hm) as (q' & -> & Hq). intros [= <-]. apply Hq.
  intros Hin. apply Hminus.
  by eapply elem_of_replace_empty, elem_of_replace_empty, ReFacts.search_elem_of.
Qed.

(** A text without a digit has no numeric token, and yields 0.0. *)
Lemma get_price_no_digit (text : string) :
  (∀ c, c ∈ chars text → ¬ is_digit c) →
  FrontierAgent.get_price self text = Ok 0.
Proof.
  unfold FrontierAgent.get_price. intros Hnone.
  destruct (Re.search _ _) as [group|] eqn:Hs; [| done].
  pose proof Hs as [Hm _]%ReFacts.search_sound.
  destruct (price_word_has_digit _ Hm) as (c & Hc & Hd).
  destruct (Hnone c); [| done].
  by eapply elem_of_replace_empty, elem_of_replace_empty, ReFacts.search_elem_of.
Qed.

(** C4: the four reference inputs of the numeric extractor: ["$1,234.56"]
    gives 1234.56, ["about 42 dollars"] gives 42.0, ["no price mentioned"]
    gives 0.0, and ["-3.5% off"] gives -3.5. *)
Theorem get_price_reference_inputs :
  (∃ q, FrontierAgent.get_price self "$1,234.56" = Ok q ∧ q == 1234.56) ∧
  (∃ q, FrontierAgent.get_price self "about 42 dollars" = Ok q ∧ q == 42.0) ∧
  (∃ q, FrontierAgent.get_price self "no price mentioned" = Ok q ∧ q == 0.0) ∧
  (∃ q, FrontierAgent.get_price self "-3.5% off" = Ok q ∧ q == -3.5).
Proof.
  split_and!; eexists; (split; [by vm_compute | by vm_compute]).
Qed.

(** C3: the sign of a token is honoured for a decimal but not for an integer:
    on ["-42"] the extractor returns 42.0, not -42.0, while on ["-42.0"] it
    returns -42.0.  The pattern is [[-+]?\d*\.\d+|\d+], whose optional sign
    belongs to the decimal alternative alone. *)
Theorem get_price_drops_integer_sign :
  (∃ q, FrontierAgent.get_price self "-42" = Ok q ∧ q == 42 ∧ ¬ q == -42) ∧
  (∃ q, FrontierAgent.get_price self "-42.0" = Ok q ∧ q == -42).
Proof.
  split; eexists; (split; [by vm_compute |]); [split |]; by vm_compute.
Qed.

End GetPrice.

(** ** The scanner *)

Section Scanner.
Context `{World}.
Local Open Scope Q_scope.
Implicit Types (self : ScannerAgent.t) (memory : list Opportunity.t).
Implicit Types (feeds : option (list string)) (tr : list event).

(** The urls of the deals already raised. *)
Local Abbreviation urls_of memory :=
  ((λ opp, Deal.url (Opportunity.deal opp)) <$> memory).

Local Abbreviation fresh memory scraped :=
  (filter (λ scrape, ScrapedDeal.url scrape ∉ urls_of memory) scraped).

Local Abbreviation config :=
  {| temperature := 0; max_output_tokens := None;
     response_mime_type := Some "application/json" |}.

Lemma fetch_deals_run self memory feeds tr :
  ScannerAgent.fetch_deals self memory feeds tr =
    let tr1 :=
      (tr ++ [Logged ScannerAgent.name
                "Scanner Agent is about to fetch deals from selected RSS feeds"])
      ++ [FeedsRead] in
    match ScrapedDeal_fetch feeds with
    | Ok scraped =>
        (tr1 ++ [Logged ScannerAgent.name
                   ("Scanner Agent received "
                    +:+ pretty (length (fresh memory scraped)) +:+ " new deals")],
         Ok (fresh memory scraped))
    | Raise e => (tr1, Raise e)
    end.
Proof.
  unfold ScannerAgent.fetch_deals, ScannerAgent.log, Agent.log, emit, call.
  unfold mbind, M_bind, mret, M_ret.
  by destruct (ScrapedDeal_fetch feeds).
Qed.

Lemma ask_gemini_run self prompt tr :
  ScannerAgent.ask_gemini self prompt tr =
    (tr ++ [ModelCalled (model_name (ScannerAgent.model self)) prompt],
     response_text ← generate_content (ScannerAgent.model self) prompt config;
     parsed ← json_loads response_text;
     DealSelection_new parsed).
Proof.
  unfold ScannerAgent.ask_gemini, call, lift.
  unfold mbind at 1 2, M_bind.
  destruct (generate_content _ _ _) as [response_text|e]; simpl; [| done].
  by destruct (json_loads response_text).
Qed.

(** Every path through [scan], from the outcome of the feeds and of the
    [try] block. *)
Lemma scan_run self memory feeds tr :
  ScannerAgent.scan self memory feeds tr =
    match ScannerAgent.fetch_deals self memory feeds tr with
    | (tr1, Raise e) => (tr1, Raise e)
    | (tr1, Ok scraped) =>
        if decide (scraped = []) then (tr1, Ok None)
        else
          let tr2 := tr1 ++ [Logged ScannerAgent.name "Scanner Agent is calling Gemini"] in
          match ScannerAgent.ask_gemini self (ScannerAgent.make_user_prompt self scraped) tr2 with
          | (tr3, Ok result) =>
              let kept := filter (λ deal, 0 < Deal.price deal) (DealSelection.deals result) in
              (tr3 ++ [Logged ScannerAgent.name
                         ("Scanner Agent received " +:+ pretty (length kept)
                          +:+ " selected deals with price>0 from Gemini")],
               Ok (Some (DealSelection.mk kept)))
          | (tr3, Raise e) =>
              if is_Exception e
              then (tr3 ++ [Logged ScannerAgent.name
                              ("❌ Scanner Agent encountered an error calling Gemini: "
                               +:+ str_exn e)],
                    Ok None)
              else (tr3, Raise e)
          end
    end.
Proof.
  unfold ScannerAgent.scan. unfold mbind at 1, M_bind at 1.
  destruct (ScannerAgent.fetch_deals _ _ _ _) as [tr1 [scraped|e]]; [| done].
  case_decide; [done |].
  unfold mbind at 1, M_bind at 1, ScannerAgent.log, Agent.log, emit.
  unfold mbind at 1, M_bind at 1, try_except, fmap, M_fmap.
  unfold mbind at 1, M_bind at 1.
  destruct (ScannerAgent.ask_gemini _ _ _) as [tr3 [result|e]]; simpl; [done |].
  by destruct (is_Exception e).
Qed.

(** What the [try] block of [scan] yields for a prompt: the reply of the
    model, decoded and validated, or the first exception on the way. *)
Local Abbreviation tried self prompt :=
  (response_text ← generate_content (ScannerAgent.model self) prompt config;
   parsed ← json_loads response_text;
   DealSelection_new parsed).

Local Abbreviation positive := (λ deal, 0 < Deal.price deal).

Lemma scan_no_candidates self memory feeds tr tr1 :
  ScannerAgent.fetch_deals self memory feeds tr = (tr1, Ok []) →
  ScannerAgent.scan self memory feeds tr = (tr1, Ok None).
Proof. intros Hf. by rewrite scan_run, Hf. Qed.

Lemma scan_selected self memory feeds tr scraped parsed :
  ScrapedDeal_fetch feeds = Ok scraped →
  fresh memory scraped ≠ [] →
  tried self (ScannerAgent.make_user_prompt self (fresh memory scraped)) = Ok parsed →
  ∃ tr',
    ScannerAgent.scan self memory feeds tr =
      (tr', Ok (Some (DealSelection.mk (filter positive (DealSelection.deals parsed))))).
Proof.
  intros Hf Hne Ht. rewrite scan_run, fetch_deals_run, Hf. simpl.
  rewrite decide_False by done. rewrite ask_gemini_run, Ht. by eexists.
Qed.

Lemma scan_caught self memory feeds tr scraped e :
  ScrapedDeal_fetch feeds = Ok scraped →
  tried self (ScannerAgent.make_user_prompt self (fresh memory scraped)) = Raise e →
  is_Exception e = true →
  ∃ tr', ScannerAgent.scan self memory feeds tr = (tr', Ok None).
Proof.
  intros Hf Ht He. rewrite scan_run, fetch_deals_run, Hf. simpl.
  case_decide; [by eexists |]. rewrite ask_gemini_run, Ht, He. by eexists.
Qed.

Lemma scan_Some_inv self memory feeds tr tr' selection :
  ScannerAgent.scan self memory feeds tr = (tr', Ok (Some selection)) →
  ∃ scraped parsed,
    ScrapedDeal_fetch feeds = Ok scraped ∧
    fresh memory scraped ≠ [] ∧
    tried self (ScannerAgent.make_user_prompt self (fresh memory scraped)) = Ok parsed ∧
    selection = DealSelection.mk (filter positive (DealSelection.deals parsed)).
Proof.
  rewrite scan_run, fetch_deals_run.
  destruct (ScrapedDeal_fetch feeds) as [scraped|e]; simpl; [| done].
  case_decide; [done |]. rewrite ask_gemini_run.
  destruct (tried self _) as [parsed|e] eqn:Ht.
  - intros [= _ <-]. by exists scraped, parsed.
  - by destruct (is_Exception e).
Qed.

(** C6: the deduplicator returns exactly the scraped candidates whose url is
    not the url of a deal in memory, in their original order. *)
Theorem fetch_deals_drops_known self memory feeds tr scraped :
  ScrapedDeal_fetch feeds = Ok scraped →
  ∃ tr' result,
    ScannerAgent.fetch_deals self memory feeds tr = (tr', Ok result) ∧
    result = filter (λ scrape, ScrapedDeal.url scrape ∉ urls_of memory) scraped ∧
    result `sublist_of` scraped ∧
    ∀ scrape, scrape ∈ result ↔
      scrape ∈ scraped ∧
      ¬ ∃ opp, opp ∈ memory ∧
               Deal.url (Opportunity.deal opp) = ScrapedDeal.url scrape.
Proof.
  intros Hf. rewrite fetch_deals_run, Hf. simpl.
  eexists _, _. split_and!; [done | done | apply sublist_filter |].
  intros scrape. rewrite list_elem_of_filter, list_elem_of_fmap.
  split.
  - intros [Hout Hin]. split; [done |].
    intros (opp & ? & ?). apply Hout. by exists opp.
  - intros [Hin Hout]. split; [| done].
    intros (opp & ? & ?). apply Hout. by exists opp.
Qed.

(** C2: the post-filter keeps exactly the parsed deals whose price is
    strictly greater than 0, in their original order; so every deal of a
    selection that [scan] returns has a price greater than 0. *)
Theorem scan_keeps_positive_prices self memory feeds tr :
  (∀ scraped parsed,
     ScrapedDeal_fetch feeds = Ok scraped →
     fresh memory scraped ≠ [] →
     tried self (ScannerAgent.make_user_prompt self (fresh memory scraped)) = Ok parsed →
     ∃ tr' selection,
       ScannerAgent.scan self memory feeds tr = (tr', Ok (Some selection)) ∧
       DealSelection.deals selection =
         filter (λ deal, 0 < Deal.price deal) (DealSelection.deals parsed) ∧
       DealSelection.deals selection `sublist_of` DealSelection.deals parsed ∧
       ∀ deal, deal ∈ DealSelection.deals selection ↔
         deal ∈ DealSelection.deals parsed ∧ 0 < Deal.price deal) ∧
  (∀ tr' selection,
     ScannerAgent.scan self memory feeds tr = (tr', Ok (Some selection)) →
     Forall (λ deal, 0 < Deal.price deal) (DealSelection.deals selection)).
Proof.
  split.
  - intros scraped parsed Hf Hne Ht.
    destruct (scan_selected self memory feeds tr _ _ Hf Hne Ht) as [tr' Hs].
    eexists _, _. split_and!; [done | done | apply sublist_filter |].
    intros deal. simpl. rewrite list_elem_of_filter. tauto.
  - intros tr' selection (scraped & parsed & _ & _ & _ & ->)%scan_Some_inv.
    simpl. apply Forall_forall. by intros deal [? _]%list_elem_of_filter.
Qed.



(** C7: once the candidates are fetched, an error of the model call, of the
    JSON parser or of the schema validation makes [scan] return [None]; no
    exception of class [Exception] leaves [scan]. *)
Theorem scan_catches_errors self memory feeds tr scraped :
  ScrapedDeal_fetch feeds = Ok scraped →
  let prompt := ScannerAgent.make_user_prompt self (fresh memory scraped) in
  (∀ e,
     is_Exception e = true →
     generate_content (ScannerAgent.model self) prompt config = Raise e ∨
     (∃ reply,
        generate_content (ScannerAgent.model self) prompt config = Ok reply ∧
        json_loads reply = Raise e) ∨
     (∃ reply parsed,
        generate_content (ScannerAgent.model self) prompt config = Ok reply ∧
        json_loads reply = Ok parsed ∧
        DealSelection_new parsed = Raise e) →
     ∃ tr', ScannerAgent.scan self memory feeds tr = (tr', Ok None)) ∧
  (∀ tr' e,
     ScannerAgent.scan self memory feeds tr = (tr', Raise e) →
     is_Exception e = false).
Proof.
  intros Hf prompt. split.
  - intros e He Hcases. apply (scan_caught self memory feeds tr scraped e); [done | | done].
    fold prompt.
    destruct Hcases as [-> | [(reply & -> & Hj) | (reply & parsed & -> & Hj & Hv)]]; simpl.
    + done.
    + by rewrite Hj.
    + by rewrite Hj.
  - intros tr' e. rewrite scan_run, fetch_deals_run, Hf. simpl.
    case_decide; [done |]. rewrite ask_gemini_run.
    destruct (tried self _) as [parsed|e']; [done |].
    destruct (is_Exception e') eqn:He'; [done |]. by intros [= _ <-].
Qed.

(** C8: when no candidate is left after deduplication, [scan] returns [None]
    at once: its trace is that of [fetch_deals], with no model call in it. *)
Theorem scan_without_candidates self memory feeds tr tr1 :
  ScannerAgent.fetch_deals self memory feeds tr = (tr1, Ok []) →
  ScannerAgent.scan self memory feeds tr = (tr1, Ok None) ∧
  model_calls tr1 = model_calls tr.
Proof.
  intros Hf. split; [by apply scan_no_candidates |].
  revert Hf. rewrite fetch_deals_run.
  destruct (ScrapedDeal_fetch feeds); [| done]. intros [= <- _].
  unfold model_calls. by rewrite !filter_app, !filter_cons, filter_nil, !app_nil_r.
Qed.

(** C10: when the reply parses and validates but no parsed deal has a price
    above 0, [scan] returns a selection with no deals, which is not [None]. *)
Theorem scan_may_select_nothing self memory feeds tr scraped parsed :
  ScrapedDeal_fetch feeds = Ok scraped →
  fresh memory scraped ≠ [] →
  tried self (ScannerAgent.make_user_prompt self (fresh memory scraped)) = Ok parsed →
  Forall (λ deal, Deal.price deal <= 0) (DealSelection.deals parsed) →
  ∃ tr',
    ScannerAgent.scan self memory feeds tr = (tr', Ok (Some (DealSelection.mk []))) ∧
    Some (DealSelection.mk []) ≠ None.
Proof.
  intros Hf Hne Ht Hall.
  destruct (scan_selected self memory feeds tr _ _ Hf Hne Ht) as [tr' Hs].
  exists tr'. split; [| done]. rewrite Hs. do 4 f_equal.
  clear Ht Hs. induction Hall as [|deal rest Hd _ IH]; [done |].
  rewrite filter_cons_False; [exact IH |]. by apply Qle_not_lt.
Qed.

End Scanner.

(** ** The frontier agent *)

Section Frontier.
Context `{World}.
Local Open Scope Q_scope.
Implicit Types (self : FrontierAgent.t) (tr : list event).

Local Abbreviation config :=
  {| temperature := 0; max_output_tokens := Some 5%nat;
     response_mime_type := None |}.

Lemma find_similars_run self description tr :
  FrontierAgent.find_similars self description tr =
    let tr1 :=
      (tr ++ [Logged FrontierAgent.name
                "Frontier Agent is performing a RAG search to find 5 similar products"])
      ++ [Encoded [description]] in
    match encode [description] with
    | Raise e => (tr1, Raise e)
    | Ok vector =>
        let tr2 := tr1 ++ [StoreQueried 5] in
        match collection_query vector 5 with
        | Raise e => (tr2, Raise e)
        | Ok results =>
            match first (documents results), first (metadatas results) with
            | Raise e, _ => (tr2, Raise e)
            | Ok _, Raise e => (tr2, Raise e)
            | Ok documents, Ok metas =>
                (tr2 ++ [Logged FrontierAgent.name
                           "Frontier Agent has found similar products"],
                 Ok (documents, FrontierAgent.metadata_price <$> metas))
            end
        end
    end.
Proof.
  unfold FrontierAgent.find_similars, FrontierAgent.log, Agent.log, emit, call, lift.
  unfold mbind, M_bind, mret, M_ret.
  destruct (encode _) as [vector|e]; [| done].
  destruct (collection_query _ _) as [results|e]; [| done].
  destruct (first (documents results)); [| done].
  by destruct (first (metadatas results)).
Qed.

Lemma metadata_price_cases (m : gmap string meta) :
  FrontierAgent.metadata_price m =
    match m !! "price" with
    | Some primary => primary
    | None =>
        match m !! "selling_price" with
        | Some fallback => fallback
        | None => MFloat 0
        end
    end.
Proof.
  unfold FrontierAgent.metadata_price, dict_get.
  destruct (m !! "price"); [done |]. by destruct (m !! "selling_price").
Qed.

(** C9: the price that [find_similars] returns for a neighbour is the value
    of its metadata field ["price"] when present, otherwise the value of
    ["selling_price"] when present, otherwise 0.0. *)
Theorem find_similars_neighbour_price self description tr vector results docs metas :
  encode [description] = Ok vector →
  collection_query vector 5 = Ok results →
  first (documents results) = Ok docs →
  first (metadatas results) = Ok metas →
  ∃ tr' prices,
    FrontierAgent.find_similars self description tr = (tr', Ok (docs, prices)) ∧
    length prices = length metas ∧
    ∀ i m, metas !! i = Some m →
      prices !! i =
        Some match m !! "price" with
             | Some primary => primary
             | None =>
                 match m !! "selling_price" with
                 | Some fallback => fallback
                 | None => MFloat 0
                 end
             end.
Proof.
  intros He Hq Hd Hm. rewrite find_similars_run, He, Hq, Hd, Hm. simpl.
  eexists _, _. split_and!; [done | by rewrite length_fmap |].
  intros i m Hi. by rewrite list_lookup_fmap, Hi, <- metadata_price_cases.
Qed.


End Frontier.

(** ** More on the numeric extractor *)

Section Literals.
Import Re.
Variable self : FrontierAgent.t.

Local Abbreviation digit := (Class is_digit).

Lemma chars_app (a b : string) : chars (a +:+ b) = chars a ++ chars b.
Proof. induction a as [|c a IH]; simpl; [done | by rewrite IH]. Qed.

Lemma replace_app (old : ascii) (new a b : list ascii) :
  replace old new (a ++ b) = replace old new a ++ replace old new b.
Proof. apply bind_app. Qed.


Lemma elem_of_replace_iff (old c : ascii) (s : list ascii) :
  c ∈ replace old [] s ↔ c ∈ s ∧ c ≠ old.
Proof.
  unfold replace. rewrite list_elem_of_bind. split.
  - intros (c' & Hc & Hc'). case_decide; [by apply elem_of_nil in Hc |].
    by apply list_elem_of_singleton in Hc as ->.
  - intros [Hc Hne]. exists c. rewrite decide_False by done.
    split; [by apply list_elem_of_singleton | done].
Qed.

Lemma bind_one {A B : Type} (f : A → list B) (x : A) : [x] ≫= f = f x.
Proof. rewrite bind_cons. apply app_nil_r. Qed.



(** A text does not start with a digit. *)
Local Abbreviation no_digit_ahead rest :=
  (∀ c, head rest = Some c → ¬ is_digit c).


Lemma ends_digit_step (c : ascii) (t : list ascii) :
  is_digit c → ends digit (c :: t) = [t].
Proof. intros Hc. simpl. by rewrite (Is_true_eq_true _ Hc). Qed.

Lemma iterate_S (step : list ascii → list (list ascii)) (n : nat) (s : list ascii) :
  iterate step (S n) s =
    (step s ≫= λ s',
       if decide (length s' < length s) then iterate step n s' else [])
    ++ [s].
Proof. done. Qed.




(** A text with a digit at its start has a match of the pattern there. *)
Lemma iterate_nonempty (step : list ascii → list (list ascii)) (fuel : nat)
    (s : list ascii) :
  iterate step fuel s ≠ [].
Proof. destruct fuel; [done |]. rewrite iterate_S. by intros [_ ?]%app_eq_nil. Qed.

Lemma ends_price_pattern_digit (c : ascii) (t : list ascii) :
  is_digit c → ends FrontierAgent.price_pattern (c :: t) ≠ [].
Proof.
  intros Hc. unfold FrontierAgent.price_pattern.
  change (ends (Or ?a (Plus digit)) ?s)
    with (ends a s ++ (ends digit s ≫= λ s', iterate (ends digit) (length s') s')).
  rewrite ends_digit_step, bind_one by done.
  intros [_ Hnil]%app_eq_nil. by apply iterate_nonempty in Hnil.
Qed.

Lemma search_digit (s : list ascii) (c : ascii) :
  c ∈ s → is_digit c → search FrontierAgent.price_pattern s ≠ None.
Proof.
  induction s as [|d t IH]; [by intros ?%elem_of_nil |].
  intros [-> | Hin]%elem_of_cons Hc; simpl.
  - unfold match_prefix.
    pose proof (ends_price_pattern_digit d t Hc) as Hne.
    by destruct (ends FrontierAgent.price_pattern (d :: t)).
  - destruct (match_prefix _ (d :: t)); [done | by apply IH].
Qed.






Local Abbreviation sign :=
  (Class (λ c, bool_decide (c = "-"%char ∨ c = "+"%char))).
Local Abbreviation point := (Class (λ c, bool_decide (c = "."%char))).
Local Abbreviation fraction := (Cat (Star digit) (Cat point (Plus digit))).

Lemma search_none_iff (s : list ascii) :
  search FrontierAgent.price_pattern s = None ↔ ∀ c, c ∈ s → ¬ is_digit c.
Proof.
  split.
  - intros Hs c Hc Hd. by apply (search_digit s c Hc Hd).
  - intros Hnone.
    destruct (search FrontierAgent.price_pattern s) as [tok|] eqn:Hs; [| done].
    pose proof Hs as [Hm _]%ReFacts.search_sound.
    destruct (price_word_has_digit _ Hm) as (c & Hc & Hd).
    destruct (Hnone c); [| done]. by eapply ReFacts.search_elem_of.
Qed.

Lemma is_digit_not_money (c : ascii) :
  is_digit c → c ≠ "$"%char ∧ c ≠ ","%char.
Proof. intros Hc. split; intros ->; by vm_compute in Hc. Qed.









(** What the extractor matches is a part of the text it was given. *)
Lemma cleaned_elem_of (c : ascii) (text : string) :
  c ∈ replace ","%char [] (replace "$"%char [] (chars text)) → c ∈ chars text.
Proof. by intros ?%elem_of_replace_empty%elem_of_replace_empty. Qed.

(** X1: the numeric extractor never raises: [float] accepts every group that
    the pattern can match. *)
Theorem get_price_never_raises (text : string) :
  ∃ q, FrontierAgent.get_price self text = Ok q.
Proof. apply get_price_returns. Qed.

(** X2: on an ASCII text, [re.search] finds no match, and the extractor
    falls back to 0.0, exactly when the text has no digit. *)
Theorem get_price_fallback_iff (text : string) :
  Forall is_ascii (chars text) →
  (search FrontierAgent.price_pattern
     (replace ","%char [] (replace "$"%char [] (chars text))) = None
   ↔ ∀ c, c ∈ chars text → ¬ is_digit c) ∧
  ((∀ c, c ∈ chars text → ¬ is_digit c) →
   FrontierAgent.get_price self text = Ok 0%Q).
Proof.
  intros _. split; [| apply get_price_no_digit].
  rewrite search_none_iff. split.
  - intros Hnone c Hc Hd. apply (Hnone c); [| done].
    apply is_digit_not_money in Hd as [? ?].
    by rewrite !elem_of_replace_iff.
  - intros Hnone c Hc. by apply Hnone, cleaned_elem_of.
Qed.

(** X3: a dollar sign or a comma anywhere in the text does not change what
    the extractor returns. *)
Theorem get_price_ignores_dollar_and_comma (a b : string) :
  FrontierAgent.get_price self (a +:+ "$" +:+ b)
    = FrontierAgent.get_price self (a +:+ b) ∧
  FrontierAgent.get_price self (a +:+ "," +:+ b)
    = FrontierAgent.get_price self (a +:+ b).
Proof.
  unfold FrontierAgent.get_price. rewrite !chars_app, !replace_app.
  split; by rewrite app_nil_l.
Qed.

(** X4: the extractor returns a negative number only for a text that holds
    both a minus sign and a decimal point. *)
Theorem get_price_negative_needs_decimal (text : string) (q : Q) :
  FrontierAgent.get_price self text = Ok q → (q < 0)%Q →
  "-"%char ∈ chars text ∧ "."%char ∈ chars text.
Proof.
  unfold FrontierAgent.get_price.
  destruct (search _ _) as [group|] eqn:Hs; [| by intros [= <-]].
  pose proof Hs as [Hm _]%ReFacts.search_sound.
  destruct (float_price_word _ Hm) as (q' & -> & Hq). intros [= <-] Hneg.
  assert (Hminus : "-"%char ∈ group).
  { destruct (decide ("-"%char ∈ group)) as [|Hout]; [done |].
    destruct (Qlt_not_le _ _ Hneg). by apply Hq. }
  split; apply cleaned_elem_of; eapply ReFacts.search_elem_of; [done | done | done |].
  destruct (price_pattern_words _ Hm) as [(sg & ds & fs & -> & _) | [_ Hds]].
  - rewrite !elem_of_app, elem_of_cons. auto.
  - rewrite Forall_forall in Hds. apply Hds in Hminus.
    by apply is_digit_not_mark in Hminus as (_ & ? & _).
Qed.



End Literals.

(** ** The estimate and its sign *)

Section Estimate.
Context `{World}.
Import Re.
Implicit Types (self : FrontierAgent.t) (tr : list event).

Local Abbreviation config :=
  {| temperature := 0; max_output_tokens := Some 5%nat;
     response_mime_type := None |}.




End Estimate.

(** ** More on the scanner *)

Section ScannerMore.
Context `{World}.
Implicit Types (self : ScannerAgent.t) (memory : list Opportunity.t).
Implicit Types (feeds : option (list string)) (tr : list event).

Local Abbreviation urls_of memory :=
  ((λ opp, Deal.url (Opportunity.deal opp)) <$> memory).

Local Abbreviation fresh memory scraped :=
  (filter (λ scrape, ScrapedDeal.url scrape ∉ urls_of memory) scraped).

Local Abbreviation config :=
  {| temperature := 0; max_output_tokens := None;
     response_mime_type := Some "application/json" |}.

Local Abbreviation tried self prompt :=
  (response_text ← generate_content (ScannerAgent.model self) prompt config;
   parsed ← json_loads response_text;
   DealSelection_new parsed).

Lemma model_calls_logged tr agent msg :
  model_calls (tr ++ [Logged agent msg]) = model_calls tr.
Proof. unfold model_calls. by rewrite filter_app, filter_cons, filter_nil, app_nil_r. Qed.

Lemma model_calls_feeds tr : model_calls (tr ++ [FeedsRead]) = model_calls tr.
Proof. unfold model_calls. by rewrite filter_app, filter_cons, filter_nil, app_nil_r. Qed.

Lemma model_calls_called tr model prompt :
  model_calls (tr ++ [ModelCalled model prompt])
    = model_calls tr ++ [ModelCalled model prompt].
Proof. unfold model_calls. by rewrite filter_app. Qed.

Lemma filter_none {A : Type} (P : A → Prop) `{∀ x, Decision (P x)} (l : list A) :
  Forall (λ x, ¬ P x) l → filter P l = [].
Proof.
  induction 1 as [|x l Hx _ IH]; [done |]. by rewrite filter_cons_False.
Qed.

Lemma string_app_assoc (a b c : string) : (a +:+ b) +:+ c = a +:+ b +:+ c.
Proof. induction a as [|ch a IH]; [done | exact (f_equal (String ch) IH)]. Qed.

Lemma string_app_nil_r (a : string) : a +:+ "" = a.
Proof. induction a as [|ch a IH]; [done | exact (f_equal (String ch) IH)]. Qed.

Lemma join_elem_of (sep x : string) (parts : list string) :
  x ∈ parts → ∃ before after, join sep parts = before +:+ x +:+ after.
Proof.
  induction parts as [|p rest IH]; [by intros ?%elem_of_nil |].
  intros [-> | Hin]%elem_of_cons.
  - destruct rest as [|r rest'].
    + exists "", "". simpl. by rewrite string_app_nil_r.
    + by exists "", (sep +:+ join sep (r :: rest')).
  - destruct rest as [|r rest']; [by apply elem_of_nil in Hin |].
    destruct (IH Hin) as (before & after & Hj).
    exists (p +:+ sep +:+ before), after.
    change (join sep (p :: r :: rest')) with (p +:+ sep +:+ join sep (r :: rest')).
    by rewrite Hj, !string_app_assoc.
Qed.

(** X7: an error of the feeds is not caught: [scan] raises it, whatever its
    class, and makes no model call. *)
Theorem scan_propagates_feed_error self memory feeds tr e :
  ScrapedDeal_fetch feeds = Raise e →
  ∃ tr',
    ScannerAgent.scan self memory feeds tr = (tr', Raise e) ∧
    model_calls tr' = model_calls tr.
Proof.
  intros Hf. rewrite scan_run, fetch_deals_run, Hf. simpl.
  eexists. split; [done |]. by rewrite model_calls_feeds, model_calls_logged.
Qed.

(** X8: [scan] calls the model once when a candidate is left after
    deduplication, with the prompt made of exactly those candidates, and not
    at all otherwise; it never retries, whatever the outcome of the call. *)
Theorem scan_calls_model_once self memory feeds tr scraped :
  ScrapedDeal_fetch feeds = Ok scraped →
  ∃ tr' r,
    ScannerAgent.scan self memory feeds tr = (tr', r) ∧
    model_calls tr' =
      model_calls tr ++
      if decide (fresh memory scraped = []) then []
      else [ModelCalled (model_name (ScannerAgent.model self))
              (ScannerAgent.make_user_prompt self (fresh memory scraped))].
Proof.
  intros Hf. rewrite scan_run, fetch_deals_run, Hf. simpl.
  case_decide.
  - eexists _, _. split; [done |].
    by rewrite model_calls_logged, model_calls_feeds, model_calls_logged, app_nil_r.
  - rewrite ask_gemini_run. destruct (tried self _) as [parsed|e].
    + eexists _, _. split; [done |].
      by rewrite model_calls_logged, model_calls_called, !model_calls_logged,
        model_calls_feeds, model_calls_logged.
    + destruct (is_Exception e); eexists _, _; (split; [done |]).
      * by rewrite model_calls_logged, model_calls_called, !model_calls_logged,
          model_calls_feeds, model_calls_logged.
      * by rewrite model_calls_called, !model_calls_logged,
          model_calls_feeds, model_calls_logged.
Qed.

(** X9: an exception that is not of class [Exception], such as
    [KeyboardInterrupt], passes the handler: [scan] raises it. *)
Theorem scan_lets_base_exception_through self memory feeds tr scraped e :
  ScrapedDeal_fetch feeds = Ok scraped →
  fresh memory scraped ≠ [] →
  tried self (ScannerAgent.make_user_prompt self (fresh memory scraped)) = Raise e →
  is_Exception e = false →
  ∃ tr', ScannerAgent.scan self memory feeds tr = (tr', Raise e).
Proof.
  intros Hf Hne Ht He. rewrite scan_run, fetch_deals_run, Hf. simpl.
  rewrite decide_False by done. rewrite ask_gemini_run, Ht, He. by eexists.
Qed.

(** X10: once every returned candidate has been raised and added to memory,
    the same feeds give no new deal: [scan] returns [None] without a model
    call. *)
Theorem scan_after_raising self memory raised feeds tr scraped :
  ScrapedDeal_fetch feeds = Ok scraped →
  (∀ scrape, scrape ∈ fresh memory scraped →
     ∃ opp, opp ∈ raised ∧
            Deal.url (Opportunity.deal opp) = ScrapedDeal.url scrape) →
  ∃ tr',
    ScannerAgent.scan self (memory ++ raised) feeds tr = (tr', Ok None) ∧
    model_calls tr' = model_calls tr.
Proof.
  intros Hf Hraised.
  assert (Hnone : fresh (memory ++ raised) scraped = []).
  { apply filter_none, Forall_forall. intros scrape Hin Hout.
    rewrite fmap_app, not_elem_of_app in Hout. destruct Hout as [Hmem Hnew].
    destruct (Hraised scrape) as (opp & Hopp & Hurl).
    - by apply list_elem_of_filter.
    - apply Hnew, list_elem_of_fmap. by exists opp. }
  rewrite scan_run, fetch_deals_run, Hf. simpl. rewrite Hnone. simpl.
  eexists. split; [done |].
  by rewrite model_calls_logged, model_calls_feeds, model_calls_logged.
Qed.

(** X11: a larger memory never brings a candidate back: what [fetch_deals]
    returns for a memory with more entries is a sublist of what it returns
    for the smaller memory. *)
Theorem fetch_deals_antitone self memory more feeds tr scraped :
  ScrapedDeal_fetch feeds = Ok scraped →
  ∃ tr1 tr2 result1 result2,
    ScannerAgent.fetch_deals self memory feeds tr = (tr1, Ok result1) ∧
    ScannerAgent.fetch_deals self (memory ++ more) feeds tr = (tr2, Ok result2) ∧
    result2 `sublist_of` result1.
Proof.
  intros Hf. rewrite !fetch_deals_run, Hf. simpl.
  eexists _, _, _, _. split_and!; [done | done |]. clear Hf.
  induction scraped as [|scrape rest IH]; [done |].
  rewrite !filter_cons.
  destruct (decide (ScrapedDeal.url scrape ∉ urls_of (memory ++ more))) as [Hout|].
  - rewrite decide_True.
    + by apply sublist_skip.
    + intros Hin. apply Hout. rewrite fmap_app, elem_of_app. by left.
  - case_decide; [by apply sublist_cons | done].
Qed.

(** X12: the user prompt holds the text of every candidate, between the fixed
    prefix and the fixed suffix. *)
Theorem make_user_prompt_holds_candidates self (scraped : list ScrapedDeal.t)
    (scrape : ScrapedDeal.t) :
  scrape ∈ scraped →
  ∃ before after,
    ScannerAgent.make_user_prompt self scraped =
      ScannerAgent.USER_PROMPT_PREFIX +:+ before
      +:+ ScrapedDeal.describe scrape +:+ after
      +:+ ScannerAgent.USER_PROMPT_SUFFIX.
Proof.
  intros Hin. unfold ScannerAgent.make_user_prompt.
  destruct (join_elem_of (nl +:+ nl) (ScrapedDeal.describe scrape)
              (ScrapedDeal.describe <$> scraped)) as (before & after & ->).
  - apply list_elem_of_fmap. by exists scrape.
  - exists before, after. by rewrite !string_app_assoc.
Qed.

End ScannerMore.

(** ** More on the frontier agent *)

Section FrontierMore.
Context `{World}.
Implicit Types (self : FrontierAgent.t) (tr : list event).

Local Abbreviation config :=
  {| temperature := 0; max_output_tokens := Some 5%nat;
     response_mime_type := None |}.

(** The prompt of a price estimation, from the context of the neighbours. *)
Local Abbreviation prompt_of context description :=
  ((context +:+ "How much does this cost?" +:+ nl +:+ nl)
   +:+ description +:+ nl +:+ nl +:+ "Price is $").

(** One round of the loop of [make_context]. *)
Local Abbreviation add_block :=
  (λ (acc : result string) '(similar, price),
     message ← acc;
     shown ← FrontierAgent.fmt_2f price;
     Ok (message
         +:+ "Potentially related product:" +:+ nl +:+ similar +:+ nl
         +:+ "Price is $" +:+ shown +:+ nl +:+ nl)).

Local Abbreviation numeric := (λ sp : string * meta, ∀ s, sp.2 ≠ MStr s).

Local Abbreviation format_error :=
  (ValueError "Unknown format code 'f' for object of type 'str'").

Lemma model_calls_other tr ev :
  is_model_call ev = false → model_calls (tr ++ [ev]) = model_calls tr.
Proof.
  intros Hev. unfold model_calls.
  rewrite filter_app, filter_cons_False, filter_nil, app_nil_r; [done |].
  rewrite Hev. by intros [].
Qed.




(** X14: with as many prices as documents, one more neighbour adds one
    block at the end of the context, after the blocks of the others. *)
Theorem make_context_snoc self (similars : list string) (prices : list meta)
    (similar : string) (price : meta) :
  length similars = length prices →
  FrontierAgent.make_context self (similars ++ [similar]) (prices ++ [price]) =
    (message ← FrontierAgent.make_context self similars prices;
     shown ← FrontierAgent.fmt_2f price;
     Ok (message
         +:+ "Potentially related product:" +:+ nl +:+ similar +:+ nl
         +:+ "Price is $" +:+ shown +:+ nl +:+ nl)).
Proof.
  intros Hlen. unfold FrontierAgent.make_context.
  rewrite zip_with_app by done. by rewrite foldl_app.
Qed.

(** X15: documents without a price and prices without a document are left
    out of the context. *)
Theorem make_context_unpaired self (similars : list string) (prices : list meta) :
  FrontierAgent.make_context self similars prices =
    FrontierAgent.make_context self
      (take (length prices) similars) (take (length similars) prices).
Proof.
  unfold FrontierAgent.make_context. by rewrite zip_with_take_both.
Qed.

Lemma find_similars_no_model_call self description tr tr1 r :
  FrontierAgent.find_similars self description tr = (tr1, r) →
  model_calls tr1 = model_calls tr.
Proof.
  rewrite find_similars_run. simpl.
  destruct (encode _) as [vector|e].
  - destruct (collection_query _ _) as [results|e].
    + destruct (first (documents results)), (first (metadatas results));
        intros [= <- _]; by rewrite ?model_calls_other by done.
    + intros [= <- _]. by rewrite !model_calls_other.
  - intros [= <- _]. by rewrite !model_calls_other.
Qed.

(** Every path through [price]. *)
Lemma price_paths self description tr :
  FrontierAgent.price self description tr =
    match FrontierAgent.find_similars self description tr with
    | (tr1, Raise e) => (tr1, Raise e)
    | (tr1, Ok (docs, prices)) =>
        match FrontierAgent.make_context self docs prices with
        | Raise e => (tr1, Raise e)
        | Ok context =>
            let tr2 :=
              (tr1 ++ [Logged FrontierAgent.name "Frontier Agent is calling Gemini"])
              ++ [ModelCalled (model_name (FrontierAgent.model self))
                    (prompt_of context description)] in
            match generate_content (FrontierAgent.model self)
                    (prompt_of context description) config with
            | Raise e => (tr2, Raise e)
            | Ok reply =>
                match FrontierAgent.get_price self (text_of (strip (chars reply))) with
                | Raise e => (tr2, Raise e)
                | Ok q =>
                    (tr2 ++ [Logged FrontierAgent.name
                               ("Frontier Agent completed - predicting $"
                                +:+ format_2f q)],
                     Ok q)
                end
            end
        end
    end.
Proof.
  unfold FrontierAgent.price. unfold mbind at 1, M_bind at 1.
  destruct (FrontierAgent.find_similars _ _ _) as [tr1 [[docs prices]|e]]; [| done].
  unfold mbind at 1, M_bind at 1, lift.
  destruct (FrontierAgent.make_context _ _ _) as [context|e]; [| done].
  unfold mbind at 1, M_bind at 1, FrontierAgent.log, Agent.log, emit.
  unfold mbind at 1, M_bind at 1, call.
  destruct (generate_content _ _ _) as [reply|e]; [| done].
  unfold mbind at 1, M_bind at 1.
  by destruct (FrontierAgent.get_price _ _).
Qed.

(** X16: an error of the model call is not caught in price estimation:
    [price] raises it, whatever its class. *)
Theorem price_propagates_model_error self description tr tr1 docs prices context e :
  FrontierAgent.find_similars self description tr = (tr1, Ok (docs, prices)) →
  FrontierAgent.make_context self docs prices = Ok context →
  generate_content (FrontierAgent.model self) (prompt_of context description) config
    = Raise e →
  ∃ tr', FrontierAgent.price self description tr = (tr', Raise e).
Proof.
  intros Hf Hc Hg. rewrite price_paths, Hf, Hc. simpl. rewrite Hg. by eexists.
Qed.

(** X17: once the context is built, [price] calls the model exactly once,
    with the context, the question, the description and the open price as
    prompt, whether the call returns or raises. *)
Theorem price_calls_model_once self description tr tr1 docs prices context :
  FrontierAgent.find_similars self description tr = (tr1, Ok (docs, prices)) →
  FrontierAgent.make_context self docs prices = Ok context →
  ∃ tr' r,
    FrontierAgent.price self description tr = (tr', r) ∧
    model_calls tr' =
      model_calls tr ++
      [ModelCalled (model_name (FrontierAgent.model self))
         (context +:+ "How much does this cost?" +:+ nl +:+ nl
          +:+ description +:+ nl +:+ nl +:+ "Price is $")].
Proof.
  intros Hf Hc. rewrite price_paths, Hf, Hc. simpl.
  pose proof (find_similars_no_model_call _ _ _ _ _ Hf) as Hcalls.
  assert (Hprompt : prompt_of context description =
            context +:+ "How much does this cost?" +:+ nl +:+ nl
            +:+ description +:+ nl +:+ nl +:+ "Price is $").
  { by rewrite !string_app_assoc. }
  rewrite Hprompt.
  destruct (generate_content _ _ _) as [reply|e].
  - destruct (get_price_returns self (text_of (strip (chars reply)))) as [q ->].
    eexists _, _. split; [done |].
    by rewrite model_calls_other, model_calls_called, model_calls_other, Hcalls.
  - eexists _, _. split; [done |].
    by rewrite model_calls_called, model_calls_other, Hcalls.
Qed.

(** X18: a failure of the encoder or of the vector store is not caught:
    [price] raises it and never reaches the model. *)
Theorem price_propagates_retrieval_error self description tr e :
  encode [description] = Raise e ∨
  (∃ vector, encode [description] = Ok vector ∧
             collection_query vector 5 = Raise e) →
  ∃ tr',
    FrontierAgent.price self description tr = (tr', Raise e) ∧
    model_calls tr' = model_calls tr.
Proof.
  intros Hfail.
  destruct (FrontierAgent.find_similars self description tr) as [tr1 r] eqn:Hf.
  pose proof (find_similars_no_model_call _ _ _ _ _ Hf) as Hcalls.
  rewrite price_paths, Hf. rewrite find_similars_run in Hf. simpl in Hf.
  destruct Hfail as [He | (vector & He & Hq)]; rewrite He in Hf.
  - injection Hf as <- <-. by eexists.
  - rewrite Hq in Hf. injection Hf as <- <-. by eexists.
Qed.


End FrontierMore.

(** ** Examples *)

Section Examples.
Local Open Scope Q_scope.

(** The deduplication example: known urls A and B, candidates A, C, B, D. *)
Lemma fetch_deals_drops_known_example :
  ScrapedDeal_fetch (World := feeding ["A"; "C"; "B"; "D"]) None
    = Ok (candidate <$> ["A"; "C"; "B"; "D"]) ∧
  ∃ tr',
    ScannerAgent.fetch_deals (H := feeding ["A"; "C"; "B"; "D"])
      scanner [known "A"; known "B"] None []
    = (tr', Ok [candidate "C"; candidate "D"]).
Proof.
  split; [reflexivity |].
  destruct (fetch_deals_drops_known (H := feeding ["A"; "C"; "B"; "D"])
              scanner [known "A"; known "B"] None [] _ eq_refl)
    as (tr' & result & Hrun & Hres & _).
  exists tr'. rewrite Hrun, Hres. reflexivity.
Defined.

(** The filtering example: parsed prices 10, 0, -5, 20, 30. *)
Lemma scan_keeps_positive_prices_example :
  ∃ tr' selection,
    ScannerAgent.scan (H := replying five_prices) scanner [] None []
      = (tr', Ok (Some selection)) ∧
    DealSelection.deals selection = [priced 10; priced 20; priced 30].
Proof.
  destruct (proj1 (scan_keeps_positive_prices (H := replying five_prices)
                     scanner [] None [])
              [candidate "C"] (DealSelection.mk five_prices)
              eq_refl ltac:(discriminate) eq_refl)
    as (tr' & selection & Hrun & Hdeals & _).
  exists tr', selection. split; [exact Hrun |]. rewrite Hdeals. reflexivity.
Defined.


(** A model call that fails with a quota error ends the scan with [None]. *)
Lemma scan_catches_errors_example :
  is_Exception (GoogleAPIError "429 quota exceeded") = true ∧
  ∃ tr',
    ScannerAgent.scan (H := failing (GoogleAPIError "429 quota exceeded"))
      scanner [] None []
    = (tr', Ok None).
Proof.
  split; [reflexivity |].
  apply (proj1 (scan_catches_errors
                  (H := failing (GoogleAPIError "429 quota exceeded"))
                  scanner [] None [] [candidate "C"] eq_refl)
           (GoogleAPIError "429 quota exceeded") eq_refl).
  left. reflexivity.
Defined.

(** With the only candidate already in memory, no model call is made. *)
Lemma scan_without_candidates_example :
  ∃ tr1,
    ScannerAgent.scan (H := replying five_prices) scanner [known "C"] None []
      = (tr1, Ok None) ∧
    model_calls tr1 = [].
Proof.
  exists (ScannerAgent.fetch_deals (H := replying five_prices)
            scanner [known "C"] None []).1.
  apply (scan_without_candidates (H := replying five_prices)
           scanner [known "C"] None []). reflexivity.
Defined.

(** A reply whose two deals are priced 0 and -5 gives an empty selection. *)
Lemma scan_may_select_nothing_example :
  ∃ tr',
    ScannerAgent.scan (H := replying [priced 0; priced (-5)]) scanner [] None []
      = (tr', Ok (Some (DealSelection.mk []))) ∧
    Some (DealSelection.mk []) ≠ None.
Proof.
  apply (scan_may_select_nothing (H := replying [priced 0; priced (-5)])
           scanner [] None [] [candidate "C"]
           (DealSelection.mk [priced 0; priced (-5)])
           eq_refl ltac:(discriminate) eq_refl).
  repeat constructor; simpl; unfold Qle; simpl; lia.
Defined.

(** The three neighbours: primary field, fallback field, neither. *)
Lemma find_similars_neighbour_price_example :
  ∃ tr' prices,
    FrontierAgent.find_similars (H := retrieving) frontier "a lamp" []
      = (tr', Ok (["lamp"; "desk"; "chair"], prices)) ∧
    prices !! 0%nat = Some (MFloat 12.5) ∧
    prices !! 1%nat = Some (MInt 7) ∧
    prices !! 2%nat = Some (MFloat 0).
Proof.
  destruct (find_similars_neighbour_price (H := retrieving) frontier "a lamp" []
              _ _ _ _ eq_refl eq_refl eq_refl eq_refl)
    as (tr' & prices & Hrun & _ & Hprice).
  exists tr', prices. split; [exact Hrun |].
  split_and!.
  - apply (Hprice 0%nat {[ "price" := MFloat 12.5 ]} eq_refl).
  - apply (Hprice 1%nat {[ "selling_price" := MInt 7 ]} eq_refl).
  - apply (Hprice 2%nat {[ "title" := MStr "chair" ]} eq_refl).
Defined.


End Examples.

(** ** More examples *)

Section MoreExamples.
Local Open Scope Q_scope.

Lemma get_price_negative_needs_decimal_example :
  FrontierAgent.get_price frontier "-3.5% off" = Ok (-3.5) ∧
  "-"%char ∈ chars "-3.5% off" ∧ "."%char ∈ chars "-3.5% off".
Proof.
  split; [reflexivity |].
  apply (get_price_negative_needs_decimal frontier "-3.5% off" (-3.5));
    reflexivity.
Defined.



Lemma scan_propagates_feed_error_example :
  ∃ tr',
    ScannerAgent.scan (H := unreachable_feeds) scanner [] None []
      = (tr', Raise (ValueError "feed unreachable")) ∧
    model_calls tr' = model_calls [].
Proof.
  apply (scan_propagates_feed_error (H := unreachable_feeds) scanner [] None []).
  reflexivity.
Defined.

Lemma scan_calls_model_once_example :
  ∃ tr' r,
    ScannerAgent.scan (H := replying five_prices) scanner [] None [] = (tr', r) ∧
    length (model_calls tr') = 1%nat.
Proof.
  destruct (scan_calls_model_once (H := replying five_prices) scanner [] None []
              [candidate "C"] eq_refl) as (tr' & r & Hrun & Hcalls).
  exists tr', r. split; [exact Hrun |]. rewrite Hcalls. reflexivity.
Defined.

Lemma scan_lets_base_exception_through_example :
  is_Exception KeyboardInterrupt = false ∧
  ∃ tr',
    ScannerAgent.scan (H := failing KeyboardInterrupt) scanner [] None []
      = (tr', Raise KeyboardInterrupt).
Proof.
  split; [reflexivity |].
  apply (scan_lets_base_exception_through (H := failing KeyboardInterrupt)
           scanner [] None [] [candidate "C"] KeyboardInterrupt
           eq_refl ltac:(discriminate) eq_refl eq_refl).
Defined.

Lemma scan_after_raising_example :
  ∃ tr',
    ScannerAgent.scan (H := feeding ["A"; "C"]) scanner
      ([known "A"] ++ [known "C"]) None []
      = (tr', Ok None) ∧
    model_calls tr' = model_calls [].
Proof.
  apply (scan_after_raising (H := feeding ["A"; "C"]) scanner
           [known "A"] [known "C"] None [] _ eq_refl).
  intros scrape Hin. exists (known "C"). split; [apply list_elem_of_here |].
  apply list_elem_of_singleton in Hin. rewrite Hin. reflexivity.
Defined.

Lemma fetch_deals_antitone_example :
  ∃ tr1 tr2 result1 result2,
    ScannerAgent.fetch_deals (H := feeding ["A"; "C"; "B"; "D"]) scanner
      [known "A"] None [] = (tr1, Ok result1) ∧
    ScannerAgent.fetch_deals (H := feeding ["A"; "C"; "B"; "D"]) scanner
      ([known "A"] ++ [known "B"]) None [] = (tr2, Ok result2) ∧
    result2 `sublist_of` result1.
Proof.
  apply (fetch_deals_antitone (H := feeding ["A"; "C"; "B"; "D"]) scanner
           [known "A"] [known "B"] None [] _ eq_refl).
Defined.

Lemma make_user_prompt_holds_candidates_example :
  ∃ before after,
    ScannerAgent.make_user_prompt scanner [candidate "C"; candidate "D"] =
      ScannerAgent.USER_PROMPT_PREFIX +:+ before
      +:+ ScrapedDeal.describe (candidate "D") +:+ after
      +:+ ScannerAgent.USER_PROMPT_SUFFIX.
Proof.
  apply (make_user_prompt_holds_candidates scanner
           [candidate "C"; candidate "D"] (candidate "D")).
  apply list_elem_of_further, list_elem_of_here.
Defined.

Lemma make_context_snoc_example :
  FrontierAgent.make_context (H := retrieving) frontier
    (["lamp"] ++ ["desk"]) ([MFloat 12.5] ++ [MInt 7]) =
    (message ← FrontierAgent.make_context (H := retrieving) frontier
                 ["lamp"] [MFloat 12.5];
     shown ← FrontierAgent.fmt_2f (H := retrieving) (MInt 7);
     Ok (message
         +:+ "Potentially related product:" +:+ nl +:+ "desk" +:+ nl
         +:+ "Price is $" +:+ shown +:+ nl +:+ nl)).
Proof.
  apply (make_context_snoc (H := retrieving) frontier ["lamp"] [MFloat 12.5]
           "desk" (MInt 7)).
  reflexivity.
Defined.

Lemma price_propagates_model_error_example :
  ∃ tr',
    FrontierAgent.price (H := failing (GoogleAPIError "503 unavailable"))
      frontier "a lamp" []
    = (tr', Raise (GoogleAPIError "503 unavailable")).
Proof.
  apply (price_propagates_model_error
           (H := failing (GoogleAPIError "503 unavailable")) frontier "a lamp" []
           (FrontierAgent.find_similars
              (H := failing (GoogleAPIError "503 unavailable"))
              frontier "a lamp" []).1
           [] [] _ (GoogleAPIError "503 unavailable") eq_refl eq_refl eq_refl).
Defined.

Lemma price_calls_model_once_example :
  ∃ tr' r,
    FrontierAgent.price (H := answering "42") frontier "a lamp" [] = (tr', r) ∧
    length (model_calls tr') = 1%nat.
Proof.
  destruct (price_calls_model_once (H := answering "42") frontier "a lamp" []
              (FrontierAgent.find_similars (H := answering "42")
                 frontier "a lamp" []).1
              [] [] _ eq_refl eq_refl) as (tr' & r & Hrun & Hcalls).
  exists tr', r. split; [exact Hrun |]. rewrite Hcalls. reflexivity.
Defined.

Lemma price_propagates_retrieval_error_example :
  ∃ tr',
    FrontierAgent.price (H := store_down) frontier "a lamp" []
      = (tr', Raise (ChromaError "store unavailable")) ∧
    model_calls tr' = model_calls [].
Proof.
  apply (price_propagates_retrieval_error (H := store_down) frontier "a lamp" []).
  right. exists ["a lamp"]. split; reflexivity.
Defined.



Lemma get_price_fallback_iff_example :
  Forall is_ascii (chars "no price mentioned") ∧
  FrontierAgent.get_price frontier "no price mentioned" = Ok 0.
Proof.
  assert (Hascii : Forall is_ascii (chars "no price mentioned"))
    by (repeat constructor).
  split; [exact Hascii |].
  apply (proj2 (get_price_fallback_iff frontier "no price mentioned" Hascii)).
  intros c Hin.
  repeat (apply elem_of_cons in Hin as [-> | Hin]; [by vm_compute |]).
  by apply elem_of_nil in Hin.
Defined.

End MoreExamples.
